(** * mongodb-aggregate-paginator: the Paginator class, embedded and verified

    Source: [src/Paginator.ts] (class [Paginator]) and [src/Pagination.ts]
    (interfaces [Pagination] and [PaginationOptions]).

    Modelling conventions.
    - A JS [number] is a [Z]: page numbers, limits and counts are integers
      (in the range where JS arithmetic on them is exact).  [===] on numbers
      is [Z.eqb]; a template literal [${n}] prints the decimal numeral
      ([pretty]).
    - A value that may be [undefined] is an [option]; [None] is [undefined].
    - JS truthiness is the class [Truthy]: the source defaults its options
      with [x ? x : d] and [if (x)].
    - Arrays are objects on a heap ([gmap] from addresses to contents), so
      that building a pipeline with spread and [push] can be told apart from
      mutating the caller's array.
    - [await collection.aggregate(p).toArray()] is one call to the query
      engine, a parameter of the development; every call is recorded. *)

From stdpp Require Import base numbers list strings pretty gmap.

Local Open Scope Z_scope.

(** ** JS values and truthiness *)

(** The values that travel opaquely through the paginator: arguments of
    pipeline stages and the projection descriptor. *)
#[local] Set Warnings "-register-all".
Inductive JsVal : Type :=
  | JsNull
  | JsBool (b : bool)
  | JsNum (n : Z)
  | JsStr (s : string)
  | JsObj (fields : list (string * JsVal)).

Class Truthy (A : Type) := truthy : A → bool.
Global Hint Mode Truthy ! : typeclass_instances.

(** [0] is the falsy number. *)
Global Instance truthy_number : Truthy Z := λ n, negb (n =? 0).

(** The empty string is the falsy string. *)
Global Instance truthy_string : Truthy string := λ s,
  match s with EmptyString => false | String _ _ => true end.

(** Every object is truthy, also the empty one. *)
Global Instance truthy_value : Truthy JsVal := λ v,
  match v with
  | JsNull => false
  | JsBool b => b
  | JsNum n => truthy n
  | JsStr s => truthy s
  | JsObj _ => true
  end.

(** [undefined] is falsy. *)
Global Instance truthy_optional {A} `{Truthy A} : Truthy (option A) := λ o,
  match o with Some a => truthy a | None => false end.

(** [o ? o : d], where [o] may be undefined. *)
Definition or_else {A} `{Truthy A} (o : option A) (d : A) : A :=
  match o with
  | Some a => if truthy a then a else d
  | None => d
  end.

(** [Math.ceil(a / b)] on integers, [b] not zero: the quotient rounded
    towards plus infinity. *)
Definition Math_ceil_div (a b : Z) : Z := - ((- a) `div` b).

(** [v > 0] where [v] may be undefined: [undefined > 0] is false. *)
Definition gt_zero (v : option Z) : bool :=
  match v with Some n => 0 <? n | None => false end.

(** ** Pipelines *)

(** A stage descriptor [{ operator: argument }]. *)
Record Stage : Type := Op { operator : string; argument : JsVal }.

Definition Skip (n : Z) : Stage := Op "$skip" (JsNum n).
Definition Limit (n : Z) : Stage := Op "$limit" (JsNum n).
Definition Project (p : JsVal) : Stage := Op "$project" p.
Definition Count (field : string) : Stage := Op "$count" (JsStr field).

Abbreviation Pipeline := (list Stage).

(** ** Pagination.ts *)

Module PaginationOptions.
Record t : Type := mk {
  page : option Z;
  limit : option Z;
  query : option string;
  url : option string;
  project : option JsVal
}.
(** The options object [{}]. *)
Definition empty : t := mk None None None None None.
End PaginationOptions.

Module Pagination.
Record t (D : Type) : Type := mk {
  data : list D;
  first_page_url : string;
  last_page_url : string;
  next_page_url : option string;
  prev_page_url : option string;
  path : string;
  per_page : Z;
  from : Z;
  to : option Z;
  total : option Z;
  current_page : Z;
  last_page : Z
}.
Global Arguments mk {D}.
Global Arguments data {D}.
Global Arguments first_page_url {D}.
Global Arguments last_page_url {D}.
Global Arguments next_page_url {D}.
Global Arguments prev_page_url {D}.
Global Arguments path {D}.
Global Arguments per_page {D}.
Global Arguments from {D}.
Global Arguments to {D}.
Global Arguments total {D}.
Global Arguments current_page {D}.
Global Arguments last_page {D}.
End Pagination.

(** ** Paginator.ts: fields and constructor *)

(** Address of an array on the heap. *)
Abbreviation addr := positive.

(** The fields of a paginator.  [options] is the options object as it is
    when the paginator is constructed; a caller that changes that object
    afterwards is not modelled. *)
Record Paginator : Type := {
  aggregation : addr;
  options : option PaginationOptions.t;
  page : Z;
  limit : Z;
  query : string;
  url : string;
  project : option JsVal
}.

(** [options?.f] *)
Definition opt_field {A} (options : option PaginationOptions.t)
    (f : PaginationOptions.t → option A) : option A :=
  options ≫= f.

(** [constructor(collection, aggregation, options?)].  The collection handle
    is the query engine of the section below. *)
Definition new_Paginator (aggregation : addr)
    (options : option PaginationOptions.t) : Paginator :=
  {| aggregation := aggregation;
     options := options;
     page := or_else (opt_field options PaginationOptions.page) 1;
     limit := or_else (opt_field options PaginationOptions.limit) 10;
     query := or_else (opt_field options PaginationOptions.query) "";
     url := or_else (opt_field options PaginationOptions.url) "";
     project :=
       match opt_field options PaginationOptions.project with
       | Some p => if truthy p then Some p else None
       | None => None
       end |}.

(** ** Paginator.ts: URL helpers *)

(** [`${this.url}?${this.query ? this.query + "&" : ""}page=${n}`] *)
Definition page_url (this : Paginator) (n : Z) : string :=
  url this +:+ "?" +:+ (if truthy (query this) then query this +:+ "&" else "")
    +:+ "page=" +:+ pretty n.

Definition getFirstPageUrl (this : Paginator) : string :=
  url this +:+ "?" +:+ (if truthy (query this) then query this +:+ "&" else "")
    +:+ "page=1".

Definition getLastPageUrl (this : Paginator) (lastPage : Z) : string :=
  page_url this lastPage.

Definition getPreviousPageUrl (this : Paginator) : option string :=
  if page this =? 1 then None else Some (page_url this (page this - 1)).

Definition getNextPageUrl (this : Paginator) (lastPage : Z) : option string :=
  if page this =? lastPage then None else Some (page_url this (page this + 1)).

(** ** The run-time: heap of arrays, query engine, exceptions *)

Section Runtime.

(** Records returned by the engine.  [totalCount_of d] reads the field
    [totalCount] of a record, which the source takes to be a number:
    [Some n] when the record carries the number [n] there, [None]
    ([undefined]) when the record has no such field. *)
Variable Document : Type.
Variable totalCount_of : Document → option Z.

(** The collection handle: [aggregate p w] is
    [await collection.aggregate(p).toArray()] in the state [w] of the
    collection (a data base, or a test double); it resolves to records or
    rejects with an error of the engine, and leaves a new state. *)
Variable World : Type.
Variable EngineError : Type.
Variable aggregate : Pipeline → World → (EngineError + list Document) * World.

Inductive Exn : Type :=
  | TypeError
  | Rejected (e : EngineError).

Inductive Outcome (A : Type) : Type :=
  | Returned (a : A)
  | Thrown (e : Exn).
#[local] Arguments Returned {A}.
#[local] Arguments Thrown {A}.

Record Mem : Type := {
  arrays : gmap addr Pipeline;   (* the pipeline arrays alive *)
  world : World;                 (* the state behind the collection handle *)
  calls : list Pipeline          (* pipelines handed to the engine, oldest first *)
}.

Definition Js (A : Type) : Type := Mem → Outcome A * Mem.

Definition throw {A} (e : Exn) : Js A := λ m, (Thrown e, m).

(** Sequencing: an exception ends the computation, the memory it left
    stays. *)
Global Instance Js_ret : MRet Js := λ A a m, (Returned a, m).

Global Instance Js_bind : MBind Js := λ A B k c m,
  match c m with
  | (Returned a, m') => k a m'
  | (Thrown e, m') => (Thrown e, m')
  end.

(** [[...xs]]: a new array with the given elements. *)
Definition new_array (xs : Pipeline) : Js addr := λ m,
  let a := fresh (dom (arrays m)) in
  (Returned a,
   {| arrays := <[a := xs]> (arrays m); world := world m; calls := calls m |}).

(** The elements of the array at [a] (spreading something that is not an
    array raises a TypeError). *)
Definition read_array (a : addr) : Js Pipeline := λ m,
  match arrays m !! a with
  | Some xs => (Returned xs, m)
  | None => (Thrown TypeError, m)
  end.

(** [a.push(x)]: updates the array in place. *)
Definition push (a : addr) (x : Stage) : Js unit := λ m,
  match arrays m !! a with
  | Some xs =>
      (Returned (),
       {| arrays := <[a := xs ++ [x]]> (arrays m); world := world m;
          calls := calls m |})
  | None => (Thrown TypeError, m)
  end.

(** [await this.collection.aggregate(a).toArray()] *)
Definition collection_aggregate (a : addr) : Js (list Document) := λ m,
  match arrays m !! a with
  | Some p =>
      let '(r, w) := aggregate p (world m) in
      (match r with inl e => Thrown (Rejected e) | inr docs => Returned docs end,
       {| arrays := arrays m; world := w; calls := calls m ++ [p] |})
  | None => (Thrown TypeError, m)
  end.

(** ** Paginator.ts: queries *)

Definition getData (this : Paginator) : Js (list Document) :=
  stages ← read_array (aggregation this);
  aggregation ← new_array
    (stages ++ [Skip ((page this - 1) * limit this); Limit (limit this)]);
  (match opt_field (options this) PaginationOptions.project with
   | Some p => if truthy p then push aggregation (Project p) else mret ()
   | None => mret ()
   end);;
  collection_aggregate aggregation.

Definition getTotalInfo (this : Paginator) : Js (option Z) :=
  stages ← read_array (aggregation this);
  pipeline ← new_array (stages ++ [Count "totalCount"]);
  docs ← collection_aggregate pipeline;
  match docs with
  | [] => throw TypeError
  | d :: _ => mret (totalCount_of d)
  end.

(** ** Paginator.ts: paginate *)

Definition paginate (this : Paginator) : Js (Pagination.t Document) :=
  data ← getData this;
  totalCount ← (if (0 <? length data)%nat then getTotalInfo this
                else mret (Some 0));
  let totalPages :=
    match totalCount with
    | Some t => if 0 <? t then Math_ceil_div t (limit this) else 1
    | None => 1
    end in
  mret {| Pagination.data := data;
         Pagination.first_page_url := getFirstPageUrl this;
         Pagination.last_page_url := getLastPageUrl this totalPages;
         Pagination.next_page_url := getNextPageUrl this totalPages;
         Pagination.prev_page_url := getPreviousPageUrl this;
         Pagination.path := url this;
         Pagination.per_page := limit this;
         Pagination.from :=
           if gt_zero totalCount
           then (if page this =? 1 then 1 else (page this - 1) * limit this + 1)
           else 0;
         Pagination.to :=
           if page this =? totalPages then totalCount
           else Some (page this * limit this);
         Pagination.total := totalCount;
         Pagination.current_page := page this;
         Pagination.last_page := totalPages |}.

(** The record [meta] that [paginate] builds from the page of records
    and the count it has read. *)
Definition meta (this : Paginator) (data : list Document)
    (totalCount : option Z) : Pagination.t Document :=
  let totalPages :=
    match totalCount with
    | Some t => if 0 <? t then Math_ceil_div t (limit this) else 1
    | None => 1
    end in
  {| Pagination.data := data;
     Pagination.first_page_url := getFirstPageUrl this;
     Pagination.last_page_url := getLastPageUrl this totalPages;
     Pagination.next_page_url := getNextPageUrl this totalPages;
     Pagination.prev_page_url := getPreviousPageUrl this;
     Pagination.path := url this;
     Pagination.per_page := limit this;
     Pagination.from :=
       if gt_zero totalCount
       then (if page this =? 1 then 1 else (page this - 1) * limit this + 1)
       else 0;
     Pagination.to :=
       if page this =? totalPages then totalCount
       else Some (page this * limit this);
     Pagination.total := totalCount;
     Pagination.current_page := page this;
     Pagination.last_page := totalPages |}.

(** ** What the two queries do to the memory *)

(** The pipeline of the data query over the caller's [stages]. *)
Definition data_query (this : Paginator) (stages : Pipeline) : Pipeline :=
  stages ++ [Skip ((page this - 1) * limit this); Limit (limit this)] ++
  match opt_field (options this) PaginationOptions.project with
  | Some p => if truthy p then [Project p] else []
  | None => []
  end.

(** The pipeline of the count query over the caller's [stages]. *)
Definition count_query (stages : Pipeline) : Pipeline :=
  stages ++ [Count "totalCount"].

(** The outcome of a call that resolved or rejected. *)
Definition settle {A} (r : EngineError + A) : Outcome A :=
  match r with inl e => Thrown (Rejected e) | inr a => Returned a end.

(** Memory after a query that ran [p] from a new array. *)
Definition after_query (m : Mem) (p : Pipeline) (w : World) : Mem :=
  {| arrays := <[fresh (dom (arrays m)) := p]> (arrays m);
     world := w;
     calls := calls m ++ [p] |}.

End Runtime.

Global Arguments TypeError {EngineError}.
Global Arguments Rejected {EngineError}.
Global Arguments Returned {EngineError A}.
Global Arguments Thrown {EngineError A}.
Global Arguments arrays {World}.
Global Arguments world {World}.
Global Arguments calls {World}.
Global Arguments settle {EngineError A}.
Global Arguments after_query {World}.
Global Arguments meta {Document}.

(** ** A test double for the collection

    The collection of [src/__tests__/Paginator.test.ts]: [toArray] is a stub
    with a queue of canned answers, [aggregate] ignores the pipeline it is
    given.  Records are objects with number fields. *)

Module Stub.

Definition Row : Type := list (string * Z).

Fixpoint field (k : string) (d : Row) : option Z :=
  match d with
  | [] => None
  | (k', v) :: d' => if String.eqb k k' then Some v else field k d'
  end.

Definition totalCount_of (d : Row) : option Z := field "totalCount" d.

(** One canned answer: records to resolve to, or an error to reject with. *)
Definition Answer : Type := string + list Row.

(** The next canned answer, whatever the pipeline; a queue that has run out
    rejects. *)
Definition aggregate (_ : Pipeline) (queue : list Answer)
    : (string + list Row) * list Answer :=
  match queue with
  | r :: queue' => (r, queue')
  | [] => (inl "no answer left", [])
  end.

(** A memory holding the caller's pipeline at address [1]. *)
Definition mem (stages : Pipeline) (queue : list Answer) : Mem (list Answer) :=
  {| arrays := {[ 1%positive := stages ]}; world := queue; calls := [] |}.

Definition paginate (this : Paginator) :=
  paginate Row totalCount_of (list Answer) string aggregate this.

Definition getData (this : Paginator) :=
  getData Row (list Answer) string aggregate this.

Definition getTotalInfo (this : Paginator) :=
  getTotalInfo Row totalCount_of (list Answer) string aggregate this.

Definition opts (page limit : option Z) (url query : option string)
    (project : option JsVal) : option PaginationOptions.t :=
  Some (PaginationOptions.mk page limit query url project).

End Stub.


(** ** A reference query engine *)

Module Engine.
Section Engine.

(** What the engine does with the stages it is not told about here
    (filters, sorts, groups), how it projects a record, and the record a
    counting stage produces. *)
Variable Document : Type.
Variable other_stage : Stage → list Document → string + list Document.
Variable project_doc : JsVal → Document → Document.
Variable count_doc : string → Z → Document.

Definition is_op (name : string) (s : Stage) : bool :=
  String.eqb (operator s) name.

(** Modelled from the spec: the query engine is an external collaborator,
    none of its code is in the repository.  The glossary gives its stages:
    Skip and Limit "discard the first N records and cap the result to M
    records", a projection limits "which record fields are returned" (one
    record out for each record in), and the counting stage yields a single
    record with the count in the named field (none over an empty input).
    A negative skip or a limit below one makes the engine "raise its own
    error". *)
Definition run_stage (s : Stage) (docs : list Document)
    : string + list Document :=
  if is_op "$skip" s then
    match argument s with
    | JsNum n =>
        if n <? 0 then inl "$skip: negative" else inr (drop (Z.to_nat n) docs)
    | _ => inl "$skip: not a number"
    end
  else if is_op "$limit" s then
    match argument s with
    | JsNum n =>
        if n <? 1 then inl "$limit: not positive"
        else inr (take (Z.to_nat n) docs)
    | _ => inl "$limit: not a number"
    end
  else if is_op "$project" s then inr (project_doc (argument s) <$> docs)
  else if is_op "$count" s then
    match argument s with
    | JsStr f =>
        inr (match docs with
             | [] => []
             | _ :: _ => [count_doc f (Z.of_nat (length docs))]
             end)
    | _ => inl "$count: not a field name"
    end
  else other_stage s docs.

(** Modelled from the spec: a pipeline runs its stages in order, each on
    the records the one before produced; the first error ends the run. *)
Fixpoint run_pipeline (p : Pipeline) (docs : list Document)
    : string + list Document :=
  match p with
  | [] => inr docs
  | s :: p' =>
      match run_stage s docs with
      | inl e => inl e
      | inr docs' => run_pipeline p' docs'
      end
  end.

(** Modelled from the spec: the state of a collection is the sequence of
    its records; a query reads it and leaves it as it is. *)
Definition aggregate (p : Pipeline) (coll : list Document)
    : (string + list Document) * list Document :=
  (run_pipeline p coll, coll).

End Engine.
End Engine.

(** A collection of number records on the reference engine: the stages
    the engine is not told about pass every record on, a projection keeps
    the fields its descriptor names. *)
Module Sample.

Definition other_stage (_ : Stage) (docs : list Stub.Row)
    : string + list Stub.Row := inr docs.

Definition project_doc (p : JsVal) (d : Stub.Row) : Stub.Row :=
  match p with
  | JsObj fields =>
      List.filter (λ kv, existsb (String.eqb kv.1) (fields.*1)) d
  | _ => d
  end.

Definition count_doc (f : string) (n : Z) : Stub.Row := [(f, n)].

Definition aggregate :=
  Engine.aggregate Stub.Row other_stage project_doc count_doc.

Definition paginate (this : Paginator) :=
  paginate Stub.Row Stub.totalCount_of (list Stub.Row) string aggregate this.

Definition getData (this : Paginator) :=
  getData Stub.Row (list Stub.Row) string aggregate this.

Definition getTotalInfo (this : Paginator) :=
  getTotalInfo Stub.Row Stub.totalCount_of (list Stub.Row) string aggregate
    this.

(** A memory holding the caller's pipeline at address [1], over a
    collection. *)
Definition mem (stages : Pipeline) (coll : list Stub.Row)
    : Mem (list Stub.Row) :=
  {| arrays := {[ 1%positive := stages ]}; world := coll; calls := [] |}.

(** The collection [{id: 1}, ..., {id: n}]. *)
Definition rows (n : nat) : list Stub.Row :=
  (λ i, [("id", Z.of_nat i)]) <$> seq 1 n.

End Sample.

(** ** Scenarios

    The runs of [src/__tests__/Paginator.test.ts] on the test double, and a
    few more on both collections. *)

Module Scenario.

Definition match_test : Stage := Op "$match" (JsObj [("test", JsStr "test")]).

(** "should correctly generate pagination URLs": page 1, limit 10, a page
    of fifty records answered, and the count 50. *)
Definition this_urls : Paginator :=
  new_Paginator 1
    (Stub.opts (Some 1) (Some 10) (Some "/api/test") (Some "status=active")
       None).
Definition page_urls : list Stub.Row := replicate 50 [("test", 1)].
Definition mem_urls : Mem (list Stub.Answer) :=
  Stub.mem [match_test] [inr page_urls; inr [[("totalCount", 50)]]].

(** "should handle edge cases for empty data". *)
Definition this_empty : Paginator :=
  new_Paginator 1 (Stub.opts (Some 1) (Some 10) (Some "/api/test") None None).
Definition mem_empty : Mem (list Stub.Answer) :=
  Stub.mem [] [inr []; inr [[("totalCount", 0)]]].

(** Page 2 of 3, with a projection. *)
Definition descriptor : JsVal := JsObj [("_id", JsNum 0); ("id", JsNum 1)].
Definition this_middle : Paginator :=
  new_Paginator 1
    (Stub.opts (Some 2) (Some 2) (Some "/api/rows") None (Some descriptor)).
Definition mem_middle : Mem (list Stub.Row) :=
  Sample.mem [match_test] (Sample.rows 5).

(** A projection option that is supplied and falsy. *)
Definition options_falsy : PaginationOptions.t :=
  PaginationOptions.mk None None None None (Some (JsNum 0)).

(** No options at all. *)
Definition this_default : Paginator := new_Paginator 1 None.

(** Page 9 of a collection that has three pages. *)
Definition this_beyond : Paginator :=
  new_Paginator 1 (Stub.opts (Some 9) (Some 2) None None None).

(** Page 3 with limit 10, answered with one record and the count 5. *)
Definition this_short : Paginator :=
  new_Paginator 1 (Stub.opts (Some 3) (Some 10) None None None).
Definition mem_short : Mem (list Stub.Answer) :=
  Stub.mem [] [inr [[("id", 7)]]; inr [[("totalCount", 5)]]].

(** Page 0 with limit 5, and page 2 with limit 0. *)
Definition options_page0 : PaginationOptions.t :=
  PaginationOptions.mk (Some 0) (Some 5) None None None.
Definition options_limit0 : PaginationOptions.t :=
  PaginationOptions.mk (Some 2) (Some 0) None None None.
Definition options_negative : PaginationOptions.t :=
  PaginationOptions.mk (Some (-2)) (Some (-3)) None None None.

(** A page with a record, and a count query answered by [[{}]]: one
    record, without a [totalCount] field. *)
Definition mem_no_field : Mem (list Stub.Answer) :=
  Stub.mem [] [inr [[("id", 7)]]; inr [[]]].

(** A page with a record, and a count query answered by [[]]. *)
Definition mem_no_record : Mem (list Stub.Answer) :=
  Stub.mem [] [inr [[("id", 7)]]; inr []].

End Scenario.

(** ** More scenarios *)

Module Edge.

(** Every option supplied, every one falsy:
    [{ page: 0, limit: 0, query: "", url: "", project: null }]. *)
Definition options_all_falsy : PaginationOptions.t :=
  PaginationOptions.mk (Some 0) (Some 0) (Some "") (Some "") (Some JsNull).

(** Only a page, a negative one: [{ page: -2 }]. *)
Definition options_page_only : PaginationOptions.t :=
  PaginationOptions.mk (Some (-2)) None None None None.

(** Only a limit, a negative one: [{ limit: -3 }]. *)
Definition options_limit_only : PaginationOptions.t :=
  PaginationOptions.mk None (Some (-3)) None None None.

(** A collection that is down: the first query is rejected. *)
Definition mem_down : Mem (list Stub.Answer) :=
  Stub.mem [Scenario.match_test] [inl "connection lost"; inr []].

(** Page 2 of 2: fifteen records, ten a page. *)
Definition this_last : Paginator :=
  new_Paginator 1
    (Stub.opts (Some 2) (Some 10) (Some "/api/rows") (Some "q=1") None).
Definition mem_fifteen : Mem (list Stub.Row) :=
  Sample.mem [] (Sample.rows 15).

(** Page 1 of 1: three records, ten a page. *)
Definition this_single : Paginator :=
  new_Paginator 1 (Stub.opts (Some 1) (Some 10) (Some "/api/rows") None None).
Definition mem_three : Mem (list Stub.Row) :=
  Sample.mem [] (Sample.rows 3).

(** Page 2 with the limit [-3], a page of one record answered and the
    count 7. *)
Definition this_negative : Paginator :=
  new_Paginator 1 (Stub.opts (Some 2) (Some (-3)) None None None).
Definition mem_seven : Mem (list Stub.Answer) :=
  Stub.mem [] [inr [[("id", 7)]]; inr [[("totalCount", 7)]]].

End Edge.

(** * Properties *)

Section Properties.

Context {Document : Type} (totalCount_of : Document → option Z).
Context {World EngineError : Type}.
Context (aggregate : Pipeline → World → (EngineError + list Document) * World).

Local Abbreviation getData := (getData Document World EngineError aggregate).
Local Abbreviation getTotalInfo :=
  (getTotalInfo Document totalCount_of World EngineError aggregate).
Local Abbreviation paginate :=
  (paginate Document totalCount_of World EngineError aggregate).
Local Abbreviation Js := (Js World EngineError).

Implicit Types (this : Paginator) (m : Mem World) (stages : Pipeline).

Lemma fresh_array_lookup m : arrays m !! fresh (dom (arrays m)) = None.
Proof. apply not_elem_of_dom, is_fresh. Qed.

Lemma getData_run this m stages :
  arrays m !! aggregation this = Some stages →
  getData this m =
    (settle (aggregate (data_query this stages) (world m)).1,
     after_query m (data_query this stages)
       (aggregate (data_query this stages) (world m)).2).
Proof.
  intros Hs. unfold getData, data_query, mbind, Js_bind, read_array.
  rewrite Hs. unfold new_array; simpl.
  destruct (opt_field (options this) PaginationOptions.project) as [p|];
    [destruct (truthy p)|]; unfold push, mret, Js_ret, collection_aggregate;
    simpl; rewrite ?lookup_insert_eq; simpl; rewrite ?lookup_insert_eq;
    rewrite ?insert_insert_eq; rewrite <- ?app_assoc; simpl;
    destruct (aggregate _ _) as [[e|docs] w]; reflexivity.
Qed.

Lemma getData_missing this m :
  arrays m !! aggregation this = None →
  getData this m = (Thrown TypeError, m).
Proof.
  intros Hs. unfold getData, mbind, Js_bind, read_array. by rewrite Hs.
Qed.

Lemma getTotalInfo_run this m stages :
  arrays m !! aggregation this = Some stages →
  getTotalInfo this m =
    (match (aggregate (count_query stages) (world m)).1 with
     | inl e => Thrown (Rejected e)
     | inr [] => Thrown TypeError
     | inr (d :: _) => Returned (totalCount_of d)
     end,
     after_query m (count_query stages)
       (aggregate (count_query stages) (world m)).2).
Proof.
  intros Hs. unfold getTotalInfo, count_query, mbind, Js_bind, read_array.
  rewrite Hs. unfold new_array, collection_aggregate; simpl.
  rewrite lookup_insert_eq.
  destruct (aggregate _ _) as [[e|[|d docs]] w]; reflexivity.
Qed.

(** A query leaves every array that was there before as it was. *)
Lemma after_query_frame m p w a xs :
  arrays m !! a = Some xs → arrays (after_query m p w) !! a = Some xs.
Proof.
  intros Ha. unfold after_query; simpl. rewrite lookup_insert_ne; [done|].
  intros <-. by rewrite fresh_array_lookup in Ha.
Qed.

(** [paginate], one query after the other. *)
Lemma paginate_run this m :
  paginate this m =
    match getData this m with
    | (Thrown e, m1) => (Thrown e, m1)
    | (Returned data, m1) =>
        if (0 <? length data)%nat then
          match getTotalInfo this m1 with
          | (Thrown e, m2) => (Thrown e, m2)
          | (Returned totalCount, m2) =>
              (Returned (meta this data totalCount), m2)
          end
        else (Returned (meta this data (Some 0)), m1)
    end.
Proof.
  unfold paginate, mbind, Js_bind.
  destruct (getData this m) as [[data|e] m1]; [|reflexivity].
  destruct (0 <? length data)%nat; [|reflexivity].
  destruct (getTotalInfo this m1) as [[tc|e] m2]; reflexivity.
Qed.

(** A returned result is [meta] of the page read and of the count read, or
    of the count [0] when the page is empty. *)
Lemma paginate_returned this m r m' :
  paginate this m = (Returned r, m') →
  ∃ data m1 totalCount,
    getData this m = (Returned data, m1) ∧
    r = meta this data totalCount ∧
    ((data = [] ∧ totalCount = Some 0 ∧ m' = m1) ∨
     (data ≠ [] ∧ getTotalInfo this m1 = (Returned totalCount, m'))).
Proof.
  rewrite paginate_run.
  destruct (getData this m) as [[data|e] m1]; [|discriminate].
  destruct data as [|d data]; simpl.
  - intros [= <- <-]. exists [], m1, (Some 0).
    split; [done|]. split; [done|]. left. done.
  - destruct (getTotalInfo this m1) as [[tc|e] m2] eqn:Ht; [|discriminate].
    intros [= <- <-]. exists (d :: data), m1, tc.
    split; [done|]. split; [done|]. right. split; [discriminate|exact Ht].
Qed.

(** The array a paginator reads its stages from must be there for a query
    to return. *)
Lemma getData_returned this m data m1 :
  getData this m = (Returned data, m1) →
  ∃ stages, arrays m !! aggregation this = Some stages.
Proof.
  destruct (arrays m !! aggregation this) as [stages|] eqn:Hs; [eauto|].
  by rewrite (getData_missing _ _ Hs).
Qed.

(** ** The ceiling *)

(** [Math_ceil_div a b] is the least integer [q] with [a ≤ q * b], for a
    positive [b]: the ceiling of the quotient. *)
Lemma Math_ceil_div_bounds a b :
  0 < b →
  (Math_ceil_div a b - 1) * b < a ≤ Math_ceil_div a b * b.
Proof.
  intros Hb. unfold Math_ceil_div. Z.div_mod_to_equations. nia.
Qed.

Lemma Math_ceil_div_unique a b q :
  0 < b → (q - 1) * b < a ≤ q * b → q = Math_ceil_div a b.
Proof.
  intros Hb Hq. pose proof (Math_ceil_div_bounds a b Hb). nia.
Qed.

Lemma Math_ceil_div_pos a b : 0 < b → 0 < a → 1 ≤ Math_ceil_div a b.
Proof.
  intros Hb Ha. pose proof (Math_ceil_div_bounds a b Hb). nia.
Qed.

(** ** Page arithmetic *)

(** C1.  Whenever [paginate] returns with a limit of at least one, the
    last page is [max(1, ceil(total/limit))], the ceiling [q] being the
    integer with [(q-1)*limit < total ≤ q*limit]; the last page is never
    below one, and it is one when the total is [0]. *)
Theorem last_page_max_one_ceiling this m r m' :
  1 ≤ limit this →
  paginate this m = (Returned r, m') →
  1 ≤ Pagination.last_page r ∧
  (Pagination.total r = Some 0 → Pagination.last_page r = 1) ∧
  (∀ total, Pagination.total r = Some total →
     Pagination.last_page r = Z.max 1 (Math_ceil_div total (limit this)) ∧
     ∃ q, (q - 1) * limit this < total ≤ q * limit this ∧
          Pagination.last_page r = Z.max 1 q).
Proof.
  intros Hl (data & m1 & tc & _ & -> & _)%paginate_returned. simpl.
  split; [|split].
  - destruct tc as [t|]; [|lia]. destruct (Z.ltb_spec 0 t); [|lia].
    apply Math_ceil_div_pos; lia.
  - intros ->. reflexivity.
  - intros t ->.
    pose proof (Math_ceil_div_bounds t (limit this) ltac:(lia)) as Hq.
    assert (Hmax : (if 0 <? t then Math_ceil_div t (limit this) else 1)
                   = Z.max 1 (Math_ceil_div t (limit this))).
    { destruct (Z.ltb_spec 0 t); nia. }
    split; [exact Hmax|].
    exists (Math_ceil_div t (limit this)). split; [lia|exact Hmax].
Qed.

(** C6.  In every result, [from] is [0] unless the total is a positive
    number, and then it is [1] on page one and [(page-1)*limit + 1] on
    every other page; [to] is the total when the page is the last page and
    [page*limit] when it is any other page, with no clamping to the
    total. *)
Theorem from_to_formulas this m r m' :
  paginate this m = (Returned r, m') →
  Pagination.current_page r = page this ∧
  Pagination.per_page r = limit this ∧
  Pagination.from r =
    match Pagination.total r with
    | Some total =>
        if decide (0 < total)
        then (if decide (page this = 1) then 1
              else (page this - 1) * limit this + 1)
        else 0
    | None => 0
    end ∧
  Pagination.to r =
    (if decide (page this = Pagination.last_page r) then Pagination.total r
     else Some (page this * limit this)).
Proof.
  intros (data & m1 & tc & _ & -> & _)%paginate_returned. simpl.
  split; [done|]. split; [done|]. split.
  - destruct tc as [t|]; simpl; [|done].
    destruct (decide (0 < t)) as [Ht|Ht].
    + rewrite (proj2 (Z.ltb_lt 0 t) Ht).
      destruct (decide (page this = 1)) as [H1|H1].
      * by rewrite (proj2 (Z.eqb_eq _ _) H1).
      * by rewrite (proj2 (Z.eqb_neq _ _) H1).
    + by rewrite (proj2 (Z.ltb_ge 0 t)) by lia.
  - match goal with
    | |- context [page this =? ?totalPages] =>
        destruct (decide (page this = totalPages)) as [Hl|Hl];
        [by rewrite (proj2 (Z.eqb_eq _ _) Hl)
        |by rewrite (proj2 (Z.eqb_neq _ _) Hl)]
    end.
Qed.

(** ** Navigation URLs *)

Lemma truthy_string_empty (s : string) : truthy s = false ↔ s = "".
Proof. destruct s; unfold truthy, truthy_string; split; congruence. Qed.

(** The template of the source, with its test on [query] read as a
    comparison with the empty string. *)
Lemma page_url_template this n :
  page_url this n =
    url this +:+ "?" +:+
    (if decide (query this = "") then "" else query this +:+ "&") +:+
    "page=" +:+ pretty n.
Proof.
  unfold page_url. destruct (query this); by case_decide.
Qed.

(** C5.  In every result, [prev_page_url] is null exactly on page one and
    is otherwise the template at [page-1]; [next_page_url] is null exactly
    when the page is the last page and is otherwise the template at
    [page+1]. *)
Theorem prev_next_page_url this m r m' :
  paginate this m = (Returned r, m') →
  let template n :=
    url this +:+ "?" +:+
    (if decide (query this = "") then "" else query this +:+ "&") +:+
    "page=" +:+ pretty n in
  Pagination.current_page r = page this ∧
  (Pagination.prev_page_url r = None ↔ page this = 1) ∧
  (page this ≠ 1 →
     Pagination.prev_page_url r = Some (template (page this - 1))) ∧
  (Pagination.next_page_url r = None ↔ page this = Pagination.last_page r) ∧
  (page this ≠ Pagination.last_page r →
     Pagination.next_page_url r = Some (template (page this + 1))).
Proof.
  intros (data & m1 & tc & _ & -> & _)%paginate_returned. simpl.
  set (totalPages := match tc with Some _ => _ | None => _ end).
  unfold getPreviousPageUrl, getNextPageUrl.
  rewrite <- !page_url_template.
  split; [done|].
  destruct (Z.eqb_spec (page this) 1), (Z.eqb_spec (page this) totalPages);
    repeat split; try done; intros; congruence.
Qed.

(** The constructor keeps the [url] and [query] strings it is given; one
    that is missing is the empty string. *)
Lemma new_Paginator_url a options :
  url (new_Paginator a options)
  = default "" (opt_field options PaginationOptions.url).
Proof.
  unfold new_Paginator, or_else; simpl.
  by destruct (opt_field options PaginationOptions.url) as [[|c u]|].
Qed.

Lemma new_Paginator_query a options :
  query (new_Paginator a options)
  = default "" (opt_field options PaginationOptions.query).
Proof.
  unfold new_Paginator, or_else; simpl.
  by destruct (opt_field options PaginationOptions.query) as [[|c q]|].
Qed.

(** C7.  For all strings [url] and [query] of the options (each the empty
    string when left out), [first_page_url] is [url ++ "?"], then
    [query ++ "&"] when [query] is not empty, then ["page=1"];
    [last_page_url] is the same with the numeral of [last_page]; with an
    empty [query] they are [url ++ "?page=1"] and [url ++ "?page=N"]. *)
Theorem first_last_page_url a options m r m' :
  paginate (new_Paginator a options) m = (Returned r, m') →
  let u := default "" (opt_field options PaginationOptions.url) in
  let q := default "" (opt_field options PaginationOptions.query) in
  Pagination.first_page_url r =
    u +:+ "?" +:+ (if decide (q = "") then "" else q +:+ "&") +:+ "page=1" ∧
  Pagination.last_page_url r =
    u +:+ "?" +:+ (if decide (q = "") then "" else q +:+ "&") +:+
    "page=" +:+ pretty (Pagination.last_page r) ∧
  (q = "" →
     Pagination.first_page_url r = u +:+ "?page=1" ∧
     Pagination.last_page_url r =
       u +:+ "?page=" +:+ pretty (Pagination.last_page r)).
Proof.
  intros (data & m1 & tc & _ & -> & _)%paginate_returned. simpl.
  set (totalPages := match tc with Some _ => _ | None => _ end).
  unfold getFirstPageUrl, getLastPageUrl. rewrite page_url_template.
  rewrite new_Paginator_url, new_Paginator_query.
  set (u := default "" _). set (q := default "" _).
  assert (Hq : (if truthy q then q +:+ "&" else "")
               = (if decide (q = "") then "" else q +:+ "&")).
  { destruct q; by case_decide. }
  rewrite Hq. split; [done|]. split; [done|].
  intros ->. by case_decide.
Qed.

(** ** The queries executed *)

Lemma getData_calls this m stages :
  arrays m !! aggregation this = Some stages →
  calls (getData this m).2 = calls m ++ [data_query this stages].
Proof. intros Hs. by rewrite (getData_run _ _ _ Hs). Qed.

Lemma getTotalInfo_calls this m stages :
  arrays m !! aggregation this = Some stages →
  calls (getTotalInfo this m).2 = calls m ++ [count_query stages].
Proof. intros Hs. by rewrite (getTotalInfo_run _ _ _ Hs). Qed.

Lemma getData_frame this m a xs :
  arrays m !! a = Some xs → arrays (getData this m).2 !! a = Some xs.
Proof.
  intros Ha. destruct (arrays m !! aggregation this) as [stages|] eqn:Hs.
  - rewrite (getData_run _ _ _ Hs). by apply after_query_frame.
  - by rewrite (getData_missing _ _ Hs).
Qed.

Lemma getTotalInfo_frame this m a xs :
  arrays m !! a = Some xs → arrays (getTotalInfo this m).2 !! a = Some xs.
Proof.
  intros Ha. destruct (arrays m !! aggregation this) as [stages|] eqn:Hs.
  - rewrite (getTotalInfo_run _ _ _ Hs). by apply after_query_frame.
  - unfold getTotalInfo, mbind, Js_bind, read_array.
    by rewrite Hs.
Qed.

(** The memory [paginate] leaves: the one of the data query, or the one of
    the count query that followed a page with records. *)
Lemma paginate_memory this m :
  (paginate this m).2 =
    match getData this m with
    | (Returned (_ :: _), m1) => (getTotalInfo this m1).2
    | (_, m1) => m1
    end.
Proof.
  rewrite paginate_run.
  destruct (getData this m) as [[[|d data]|e] m1]; simpl; try done.
  by destruct (getTotalInfo this m1) as [[tc|e] m2].
Qed.

(** The calls [paginate] makes: the data query, and the count query when
    the page has a record. *)
Lemma paginate_calls this m stages :
  arrays m !! aggregation this = Some stages →
  calls (paginate this m).2 =
    calls m ++
    (data_query this stages ::
     match (getData this m).1 with
     | Returned (_ :: _) => [count_query stages]
     | _ => []
     end).
Proof.
  intros Hs. rewrite paginate_memory.
  pose proof (getData_calls this m stages Hs) as Hc.
  pose proof (getData_frame this m _ _ Hs) as Hf.
  destruct (getData this m) as [[[|d data]|e] m1]; simpl in *; try done.
  rewrite (getTotalInfo_calls _ _ _ Hf), Hc. by rewrite <- app_assoc.
Qed.

(** C2.  When the data query returns no record, [paginate] returns in the
    memory the data query left: the call to the engine for the page is the
    only one, no count query is executed; the total is [0] and the last
    page is [1], whatever page was asked for. *)
Theorem empty_page_no_count_query this m m1 :
  getData this m = (Returned [], m1) →
  ∃ r stages,
    paginate this m = (Returned r, m1) ∧
    arrays m !! aggregation this = Some stages ∧
    calls m1 = calls m ++ [data_query this stages] ∧
    (count_query stages ∉ [data_query this stages]) ∧
    Pagination.data r = [] ∧
    Pagination.total r = Some 0 ∧
    Pagination.last_page r = 1 ∧
    Pagination.current_page r = page this.
Proof.
  intros Hd. destruct (getData_returned _ _ _ _ Hd) as [stages Hs].
  exists (meta this [] (Some 0)), stages.
  split; [by rewrite paginate_run, Hd|]. split; [done|].
  split; [by rewrite <- (getData_calls _ _ _ Hs), Hd|].
  split; [|done].
  intros Hin%list_elem_of_singleton. unfold count_query, data_query in Hin.
  apply app_inv_head in Hin. discriminate Hin.
Qed.

(** C3, as amended.  The pipeline executed for the data query is the
    caller's stages, then [Skip((page-1)*limit)], then [Limit(limit)], then
    [Project(projection)] exactly when the options carry a projection that
    is truthy (every object is; [null], [0], the empty string and [false]
    are not); the pipeline executed for the count query is the caller's
    stages, then [Count("totalCount")].  [paginate] executes the first and,
    when the page has a record, the second, and nothing else. *)
Theorem executed_pipelines this m stages :
  arrays m !! aggregation this = Some stages →
  let skip_limit :=
    [Skip ((page this - 1) * limit this); Limit (limit this)] in
  let projection :=
    match options this ≫= PaginationOptions.project with
    | Some p => if truthy p then [Project p] else []
    | None => []
    end in
  calls (getData this m).2 = calls m ++ [stages ++ skip_limit ++ projection] ∧
  calls (getTotalInfo this m).2 = calls m ++ [stages ++ [Count "totalCount"]] ∧
  calls (paginate this m).2 =
    calls m ++
    [stages ++ skip_limit ++ projection] ++
    match (getData this m).1 with
    | Returned (_ :: _) => [stages ++ [Count "totalCount"]]
    | _ => []
    end.
Proof.
  intros Hs. simpl.
  split; [exact (getData_calls _ _ _ Hs)|].
  split; [exact (getTotalInfo_calls _ _ _ Hs)|].
  exact (paginate_calls _ _ _ Hs).
Qed.

(** With a projection that is an object, the claim reads as it was made:
    the stage is there exactly when the option is. *)
Corollary executed_data_pipeline_object this m stages :
  arrays m !! aggregation this = Some stages →
  (∀ p, options this ≫= PaginationOptions.project = Some p →
        ∃ fields, p = JsObj fields) →
  calls (getData this m).2 =
    calls m ++
    [stages ++ [Skip ((page this - 1) * limit this); Limit (limit this)] ++
     match options this ≫= PaginationOptions.project with
     | Some p => [Project p]
     | None => []
     end].
Proof.
  intros Hs Hobj. rewrite (getData_calls _ _ _ Hs). unfold data_query, opt_field.
  destruct (options this ≫= PaginationOptions.project) as [p|]; [|done].
  by destruct (Hobj p eq_refl) as [fields ->].
Qed.

(** ** The caller's array *)

(** C4.  [paginate] leaves every array that was on the heap before the
    call as it was, whether it returns or throws: the caller's pipeline is
    never mutated, the stages are appended to copies.  So a second call on
    the same paginator builds its data query from the same stages as the
    first. *)
Theorem caller_pipeline_unchanged this m a xs :
  arrays m !! a = Some xs →
  arrays (getData this m).2 !! a = Some xs ∧
  arrays (getTotalInfo this m).2 !! a = Some xs ∧
  arrays (paginate this m).2 !! a = Some xs ∧
  (a = aggregation this →
     ∃ rest1 rest2,
       calls (paginate this m).2 = calls m ++ data_query this xs :: rest1 ∧
       calls (paginate this (paginate this m).2).2
         = calls (paginate this m).2 ++ data_query this xs :: rest2).
Proof.
  intros Ha.
  assert (Hp : ∀ m0, arrays m0 !! a = Some xs →
                     arrays (paginate this m0).2 !! a = Some xs).
  { intros m0 H0. rewrite paginate_memory.
    pose proof (getData_frame this m0 _ _ H0) as Hf.
    destruct (getData this m0) as [[[|d data]|e] m1]; simpl in *; try done.
    by apply getTotalInfo_frame. }
  split; [by apply getData_frame|].
  split; [by apply getTotalInfo_frame|].
  split; [by apply Hp|].
  intros ->. eexists _, _.
  split; [apply (paginate_calls _ _ _ Ha)|].
  apply paginate_calls, Hp, Ha.
Qed.

(** ** Options out of range *)

Lemma or_else_number (o : option Z) (d : Z) :
  or_else o d = match o with
                | Some n => if decide (n = 0) then d else n
                | None => d
                end.
Proof.
  unfold or_else, truthy, truthy_number. destruct o as [n|]; [|done].
  by destruct (Z.eqb_spec n 0); case_decide.
Qed.

(** C8, as amended.  Whatever page and limit an options bundle supplies,
    one, both or neither: a supplied value that is not [0], negative ones
    included, is stored as it is, without validation; a supplied [0] is
    stored as the default, like a value left out ([1] for the page, [10]
    for the limit).  The data pipeline then has the skip stage
    [(page-1)*limit] and the limit stage [limit] over the values so
    stored. *)
Theorem page_limit_stored a o :
  let this := new_Paginator a (Some o) in
  let stored_page :=
    match PaginationOptions.page o with
    | Some p => if decide (p = 0) then 1 else p
    | None => 1
    end in
  let stored_limit :=
    match PaginationOptions.limit o with
    | Some l => if decide (l = 0) then 10 else l
    | None => 10
    end in
  page this = stored_page ∧
  limit this = stored_limit ∧
  ∀ m stages, arrays m !! a = Some stages →
    calls (getData this m).2 =
      calls m ++
      [stages ++
       [Skip ((stored_page - 1) * stored_limit); Limit stored_limit] ++
       match PaginationOptions.project o with
       | Some pr => if truthy pr then [Project pr] else []
       | None => []
       end].
Proof.
  simpl. unfold opt_field; simpl. rewrite !or_else_number.
  split; [done|]. split; [done|].
  intros m stages Hs.
  rewrite (getData_calls (new_Paginator a (Some o)) m stages Hs).
  unfold data_query; simpl. unfold opt_field; simpl.
  by rewrite !or_else_number.
Qed.

(** ** The count record *)


End Properties.

(** ** The length of a page, on the reference engine *)

Section EngineProperties.

Context {Document : Type} (totalCount_of : Document → option Z).
Context (other_stage : Stage → list Document → string + list Document).
Context (project_doc : JsVal → Document → Document).
Context (count_doc : string → Z → Document).

Local Abbreviation run_stage :=
  (Engine.run_stage Document other_stage project_doc count_doc).
Local Abbreviation run_pipeline :=
  (Engine.run_pipeline Document other_stage project_doc count_doc).
Local Abbreviation aggregate :=
  (Engine.aggregate Document other_stage project_doc count_doc).
Local Abbreviation paginate :=
  (paginate Document totalCount_of (list Document) string aggregate).

Lemma run_pipeline_app p1 p2 docs :
  run_pipeline (p1 ++ p2) docs =
    match run_pipeline p1 docs with
    | inl e => inl e
    | inr docs' => run_pipeline p2 docs'
    end.
Proof.
  revert docs. induction p1 as [|s p1 IH]; intros docs; simpl; [done|].
  destruct (run_stage s docs) as [e|docs']; [done|]. apply IH.
Qed.

Lemma run_stage_Skip n docs docs' :
  run_stage (Skip n) docs = inr docs' →
  0 ≤ n ∧ docs' = drop (Z.to_nat n) docs.
Proof.
  unfold Engine.run_stage; simpl.
  destruct (Z.ltb_spec n 0); [done|]. by intros [= <-].
Qed.

Lemma run_stage_Limit n docs docs' :
  run_stage (Limit n) docs = inr docs' →
  1 ≤ n ∧ docs' = take (Z.to_nat n) docs.
Proof.
  unfold Engine.run_stage; simpl.
  destruct (Z.ltb_spec n 1); [done|]. by intros [= <-].
Qed.

(** The data query cuts the records the caller's stages produce to one
    page. *)
Lemma data_query_page this stages coll docs :
  run_pipeline (data_query this stages) coll = inr docs →
  ∃ found,
    run_pipeline stages coll = inr found ∧
    length docs =
      length (take (Z.to_nat (limit this))
                (drop (Z.to_nat ((page this - 1) * limit this)) found)) ∧
    1 ≤ limit this.
Proof.
  unfold data_query. rewrite run_pipeline_app.
  destruct (run_pipeline stages coll) as [e|found]; [done|].
  intros Hrun. exists found. split; [done|].
  rewrite run_pipeline_app in Hrun. simpl in Hrun.
  destruct (run_stage (Skip _) found) as [e|d1] eqn:H1; [done|].
  apply run_stage_Skip in H1 as [_ ->].
  destruct (run_stage (Limit _) _) as [e|d2] eqn:H2; [done|].
  apply run_stage_Limit in H2 as [Hl ->]. split; [|done].
  destruct (opt_field (options this) PaginationOptions.project) as [p|];
    [destruct (truthy p)|]; simpl in Hrun.
  - injection Hrun as <-. by rewrite length_fmap.
  - by injection Hrun as <-.
  - by injection Hrun as <-.
Qed.

(** A query that returns leaves the engine's answer as the result. *)
Lemma getData_answer (this : Paginator) (m : Mem (list Document)) data m1 :
  getData Document (list Document) string aggregate this m
    = (Returned data, m1) →
  ∃ stages, arrays m !! aggregation this = Some stages ∧
            run_pipeline (data_query this stages) (world m) = inr data.
Proof.
  intros Hd. destruct (getData_returned _ _ _ _ _ Hd) as [stages Hs].
  exists stages. split; [done|].
  rewrite (getData_run _ _ _ _ Hs) in Hd. simpl in Hd.
  destruct (run_pipeline _ _); simpl in Hd; congruence.
Qed.

(** C9.  On the reference engine, for every state of the collection,
    every pipeline of the caller and every options bundle with a limit of
    at least one, the page of records [paginate] returns is no longer than
    the limit. *)
Theorem data_length_at_most_limit a o l (m : Mem (list Document)) r m' :
  PaginationOptions.limit o = Some l →
  1 ≤ l →
  paginate (new_Paginator a (Some o)) m = (Returned r, m') →
  Pagination.per_page r = l ∧
  (length (Pagination.data r) ≤ Z.to_nat l)%nat.
Proof.
  intros Ho Hl (data & m1 & tc & Hd & -> & _)%paginate_returned. simpl.
  assert (Hlim : limit (new_Paginator a (Some o)) = l).
  { simpl. unfold opt_field; simpl. rewrite Ho, or_else_number.
    rewrite decide_False; [done|lia]. }
  unfold opt_field; simpl. rewrite Ho, or_else_number, decide_False by lia.
  split; [done|].
  apply getData_answer in Hd as (stages & _ & Hrun).
  apply data_query_page in Hrun as (found & _ & -> & _).
  rewrite Hlim, length_take. lia.
Qed.

End EngineProperties.

(** * The properties at work *)

Section Runs.

Import Scenario.

Local Abbreviation result_urls := (meta this_urls page_urls (Some 50)).
Local Abbreviation result_middle :=
  (meta this_middle [[("id", 3)]; [("id", 4)]] (Some 5)).

Lemma last_page_max_one_ceiling_run :
  1 ≤ limit this_urls ∧
  Stub.paginate this_urls mem_urls
    = (Returned result_urls, (Stub.paginate this_urls mem_urls).2) ∧
  1 ≤ Pagination.last_page result_urls ∧
  (Pagination.total result_urls = Some 0 →
     Pagination.last_page result_urls = 1) ∧
  (∀ total, Pagination.total result_urls = Some total →
     Pagination.last_page result_urls
       = Z.max 1 (Math_ceil_div total (limit this_urls)) ∧
     ∃ q, (q - 1) * limit this_urls < total ≤ q * limit this_urls ∧
          Pagination.last_page result_urls = Z.max 1 q).
Proof.
  split; [by vm_compute|]. split; [by vm_compute|].
  apply (last_page_max_one_ceiling Stub.totalCount_of Stub.aggregate
           this_urls mem_urls result_urls (Stub.paginate this_urls mem_urls).2).
  - by vm_compute.
  - by vm_compute.
Defined.

(** The run of the test file: fifty records, five pages. *)
Example run_urls :
  (Stub.paginate this_urls mem_urls).1 =
    Returned
      {| Pagination.data := page_urls;
         Pagination.first_page_url := "/api/test?status=active&page=1";
         Pagination.last_page_url := "/api/test?status=active&page=5";
         Pagination.next_page_url := Some "/api/test?status=active&page=2";
         Pagination.prev_page_url := None;
         Pagination.path := "/api/test";
         Pagination.per_page := 10;
         Pagination.from := 1;
         Pagination.to := Some 10;
         Pagination.total := Some 50;
         Pagination.current_page := 1;
         Pagination.last_page := 5 |}.
Proof. by vm_compute. Qed.

(** The run of the test file on an empty page; the answer queued for the
    count query is still in the queue afterwards. *)
Example run_empty :
  Stub.paginate this_empty mem_empty =
    (Returned
       {| Pagination.data := [];
          Pagination.first_page_url := "/api/test?page=1";
          Pagination.last_page_url := "/api/test?page=1";
          Pagination.next_page_url := None;
          Pagination.prev_page_url := None;
          Pagination.path := "/api/test";
          Pagination.per_page := 10;
          Pagination.from := 0;
          Pagination.to := Some 0;
          Pagination.total := Some 0;
          Pagination.current_page := 1;
          Pagination.last_page := 1 |},
     (Stub.getData this_empty mem_empty).2) ∧
  world (Stub.paginate this_empty mem_empty).2 = [inr [[("totalCount", 0)]]].
Proof. by vm_compute. Qed.

(** Scenario A of the specification: no options, nothing found. *)
Example run_default :
  (Sample.paginate this_default (Sample.mem [] [])).1 =
    Returned
      {| Pagination.data := [];
         Pagination.first_page_url := "?page=1";
         Pagination.last_page_url := "?page=1";
         Pagination.next_page_url := None;
         Pagination.prev_page_url := None;
         Pagination.path := "";
         Pagination.per_page := 10;
         Pagination.from := 0;
         Pagination.to := Some 0;
         Pagination.total := Some 0;
         Pagination.current_page := 1;
         Pagination.last_page := 1 |}.
Proof. by vm_compute. Qed.

(** Page 2 of 3 on the reference engine. *)
Example run_middle :
  (Sample.paginate this_middle mem_middle).1 =
    Returned
      {| Pagination.data := [[("id", 3)]; [("id", 4)]];
         Pagination.first_page_url := "/api/rows?page=1";
         Pagination.last_page_url := "/api/rows?page=3";
         Pagination.next_page_url := Some "/api/rows?page=3";
         Pagination.prev_page_url := Some "/api/rows?page=1";
         Pagination.path := "/api/rows";
         Pagination.per_page := 2;
         Pagination.from := 3;
         Pagination.to := Some 4;
         Pagination.total := Some 5;
         Pagination.current_page := 2;
         Pagination.last_page := 3 |}.
Proof. by vm_compute. Qed.

(** A page past the end of a collection with records gives the result of
    an empty collection. *)
Example run_beyond :
  (Sample.paginate this_beyond (Sample.mem [] (Sample.rows 5))).1
  = (Sample.paginate this_beyond (Sample.mem [] [])).1 ∧
  calls (Sample.paginate this_beyond (Sample.mem [] (Sample.rows 5))).2
  = [[Skip 16; Limit 2]].
Proof. by vm_compute. Qed.

(** [to] is [page * limit] off the last page, above the total here. *)
Example run_short :
  ∃ r, (Stub.paginate this_short mem_short).1 = Returned r ∧
       Pagination.total r = Some 5 ∧ Pagination.last_page r = 1 ∧
       Pagination.to r = Some 30 ∧ Pagination.from r = 21.
Proof. eexists. by vm_compute. Qed.

(** The paginator hands on what the collection answers: the test double
    of the test file answers fifty records to a query with limit ten. *)
Example run_urls_page_length :
  ∃ r, (Stub.paginate this_urls mem_urls).1 = Returned r ∧
       Pagination.per_page r = 10 ∧ length (Pagination.data r) = 50%nat.
Proof. eexists. by vm_compute. Qed.

(** *** The theorems at the scenarios *)

Lemma empty_page_no_count_query_run :
  Stub.getData this_empty mem_empty
    = (Returned [], (Stub.getData this_empty mem_empty).2) ∧
  ∃ r stages,
    Stub.paginate this_empty mem_empty
      = (Returned r, (Stub.getData this_empty mem_empty).2) ∧
    arrays mem_empty !! aggregation this_empty = Some stages ∧
    calls (Stub.getData this_empty mem_empty).2
      = calls mem_empty ++ [data_query this_empty stages] ∧
    (count_query stages ∉ [data_query this_empty stages]) ∧
    Pagination.data r = [] ∧
    Pagination.total r = Some 0 ∧
    Pagination.last_page r = 1 ∧
    Pagination.current_page r = page this_empty.
Proof.
  split; [by vm_compute|].
  apply (empty_page_no_count_query Stub.totalCount_of Stub.aggregate
           this_empty mem_empty).
  by vm_compute.
Defined.

Lemma executed_pipelines_run :
  arrays mem_middle !! aggregation this_middle = Some [match_test] ∧
  calls (Sample.getData this_middle mem_middle).2
    = [[match_test; Skip 2; Limit 2; Project descriptor]] ∧
  calls (Sample.getTotalInfo this_middle mem_middle).2
    = [[match_test; Count "totalCount"]] ∧
  calls (Sample.paginate this_middle mem_middle).2
    = [[match_test; Skip 2; Limit 2; Project descriptor];
       [match_test; Count "totalCount"]].
Proof.
  split; [by vm_compute|].
  apply (executed_pipelines Stub.totalCount_of Sample.aggregate
           this_middle mem_middle [match_test]).
  by vm_compute.
Defined.

Lemma caller_pipeline_unchanged_run :
  arrays mem_middle !! 1%positive = Some [match_test] ∧
  arrays (Sample.getData this_middle mem_middle).2 !! 1%positive
    = Some [match_test] ∧
  arrays (Sample.getTotalInfo this_middle mem_middle).2 !! 1%positive
    = Some [match_test] ∧
  arrays (Sample.paginate this_middle mem_middle).2 !! 1%positive
    = Some [match_test] ∧
  (1%positive = aggregation this_middle →
     ∃ rest1 rest2,
       calls (Sample.paginate this_middle mem_middle).2
         = calls mem_middle ++ data_query this_middle [match_test] :: rest1 ∧
       calls (Sample.paginate this_middle
                (Sample.paginate this_middle mem_middle).2).2
         = calls (Sample.paginate this_middle mem_middle).2 ++
           data_query this_middle [match_test] :: rest2).
Proof.
  split; [by vm_compute|].
  apply (caller_pipeline_unchanged Stub.totalCount_of Sample.aggregate
           this_middle mem_middle 1%positive [match_test]).
  by vm_compute.
Defined.

Lemma prev_next_page_url_run :
  Stub.paginate this_urls mem_urls
    = (Returned result_urls, (Stub.paginate this_urls mem_urls).2) ∧
  Pagination.current_page result_urls = 1 ∧
  (Pagination.prev_page_url result_urls = None ↔ page this_urls = 1) ∧
  (page this_urls ≠ 1 →
     Pagination.prev_page_url result_urls
       = Some ("/api/test?status=active&page=" +:+ pretty (page this_urls - 1))) ∧
  (Pagination.next_page_url result_urls = None
     ↔ page this_urls = Pagination.last_page result_urls) ∧
  (page this_urls ≠ Pagination.last_page result_urls →
     Pagination.next_page_url result_urls
       = Some "/api/test?status=active&page=2").
Proof.
  split; [by vm_compute|].
  apply (prev_next_page_url Stub.totalCount_of Stub.aggregate
           this_urls mem_urls result_urls (Stub.paginate this_urls mem_urls).2).
  by vm_compute.
Defined.

Lemma from_to_formulas_run :
  (Sample.paginate this_middle mem_middle
     = (Returned result_middle, (Sample.paginate this_middle mem_middle).2) ∧
   Pagination.total result_middle = Some 5 ∧
   Pagination.last_page result_middle = 3 ∧
   Pagination.current_page result_middle = 2 ∧
   Pagination.per_page result_middle = 2 ∧
   Pagination.from result_middle = 3 ∧
   Pagination.to result_middle = Some 4) ∧
  (Stub.paginate this_urls mem_urls
     = (Returned result_urls, (Stub.paginate this_urls mem_urls).2) ∧
   Pagination.current_page result_urls = 1 ∧
   Pagination.per_page result_urls = 10 ∧
   Pagination.from result_urls = 1 ∧
   Pagination.to result_urls = Some 10) ∧
  (Stub.paginate this_empty mem_empty
     = (Returned (meta this_empty [] (Some 0)),
        (Stub.paginate this_empty mem_empty).2) ∧
   Pagination.total (meta this_empty ([] : list Stub.Row) (Some 0)) = Some 0 ∧
   Pagination.current_page (meta this_empty ([] : list Stub.Row) (Some 0)) = 1 ∧
   Pagination.per_page (meta this_empty ([] : list Stub.Row) (Some 0)) = 10 ∧
   Pagination.from (meta this_empty ([] : list Stub.Row) (Some 0)) = 0 ∧
   Pagination.to (meta this_empty ([] : list Stub.Row) (Some 0)) = Some 0).
Proof.
  split; [|split].
  - split; [by vm_compute|]. split; [reflexivity|]. split; [by vm_compute|].
    apply (from_to_formulas Stub.totalCount_of Sample.aggregate
             this_middle mem_middle result_middle
             (Sample.paginate this_middle mem_middle).2).
    by vm_compute.
  - split; [by vm_compute|].
    apply (from_to_formulas Stub.totalCount_of Stub.aggregate
             this_urls mem_urls result_urls
             (Stub.paginate this_urls mem_urls).2).
    by vm_compute.
  - split; [by vm_compute|]. split; [reflexivity|].
    apply (from_to_formulas Stub.totalCount_of Stub.aggregate
             this_empty mem_empty (meta this_empty [] (Some 0))
             (Stub.paginate this_empty mem_empty).2).
    by vm_compute.
Defined.

Lemma first_last_page_url_run :
  Stub.paginate this_urls mem_urls
    = (Returned result_urls, (Stub.paginate this_urls mem_urls).2) ∧
  Pagination.first_page_url result_urls = "/api/test?status=active&page=1" ∧
  Pagination.last_page_url result_urls = "/api/test?status=active&page=5" ∧
  ("status=active" = "" →
     Pagination.first_page_url result_urls = "/api/test?page=1" ∧
     Pagination.last_page_url result_urls = "/api/test?page=5").
Proof.
  split; [by vm_compute|].
  apply (first_last_page_url Stub.totalCount_of Stub.aggregate 1%positive
           (Stub.opts (Some 1) (Some 10) (Some "/api/test")
              (Some "status=active") None)
           mem_urls result_urls (Stub.paginate this_urls mem_urls).2).
  by vm_compute.
Defined.

Lemma page_limit_stored_run :
  (page (new_Paginator 1 (Some Edge.options_page_only)) = -2 ∧
   limit (new_Paginator 1 (Some Edge.options_page_only)) = 10 ∧
   calls (Stub.getData (new_Paginator 1 (Some Edge.options_page_only))
            (Stub.mem [match_test] [])).2
     = [[match_test; Skip (-30); Limit 10]]) ∧
  (page (new_Paginator 1 (Some Edge.options_limit_only)) = 1 ∧
   limit (new_Paginator 1 (Some Edge.options_limit_only)) = -3 ∧
   calls (Stub.getData (new_Paginator 1 (Some Edge.options_limit_only))
            (Stub.mem [match_test] [])).2
     = [[match_test; Skip 0; Limit (-3)]]) ∧
  (page (new_Paginator 1 (Some options_negative)) = -2 ∧
   limit (new_Paginator 1 (Some options_negative)) = -3 ∧
   calls (Stub.getData (new_Paginator 1 (Some options_negative))
            (Stub.mem [match_test] [])).2
     = [[match_test; Skip 9; Limit (-3)]]).
Proof.
  split; [|split].
  - destruct (page_limit_stored Stub.aggregate 1%positive
                Edge.options_page_only) as (Hp & Hl & Hc).
    split; [exact Hp|]. split; [exact Hl|].
    exact (Hc (Stub.mem [match_test] []) [match_test] eq_refl).
  - destruct (page_limit_stored Stub.aggregate 1%positive
                Edge.options_limit_only) as (Hp & Hl & Hc).
    split; [exact Hp|]. split; [exact Hl|].
    exact (Hc (Stub.mem [match_test] []) [match_test] eq_refl).
  - destruct (page_limit_stored Stub.aggregate 1%positive
                options_negative) as (Hp & Hl & Hc).
    split; [exact Hp|]. split; [exact Hl|].
    exact (Hc (Stub.mem [match_test] []) [match_test] eq_refl).
Defined.

Lemma data_length_at_most_limit_run :
  PaginationOptions.limit
    (PaginationOptions.mk (Some 2) (Some 2) None (Some "/api/rows")
       (Some descriptor)) = Some 2 ∧
  1 ≤ 2 ∧
  Sample.paginate this_middle mem_middle
    = (Returned result_middle, (Sample.paginate this_middle mem_middle).2) ∧
  Pagination.per_page result_middle = 2 ∧
  (length (Pagination.data result_middle) ≤ Z.to_nat 2)%nat.
Proof.
  split; [reflexivity|]. split; [lia|]. split; [by vm_compute|].
  apply (data_length_at_most_limit Stub.totalCount_of Sample.other_stage
           Sample.project_doc Sample.count_doc 1%positive
           (PaginationOptions.mk (Some 2) (Some 2) None (Some "/api/rows")
              (Some descriptor))
           2 mem_middle _ (Sample.paginate this_middle mem_middle).2).
  - reflexivity.
  - lia.
  - by vm_compute.
Defined.


(** A count query that resolves to no record: [paginate] throws. *)
Example run_no_record :
  (Stub.paginate this_default mem_no_record).1 = Thrown TypeError.
Proof. by vm_compute. Qed.

(** *** Where the code departs from the claims *)

(** C3 as stated fails: with the options [{ project: 0 }] a projection is
    supplied, and the data pipeline executed is the caller's stages,
    [Skip] and [Limit], with no [Project] stage. *)
Lemma falsy_projection_not_appended :
  PaginationOptions.project options_falsy = Some (JsNum 0) ∧
  calls (Stub.getData (new_Paginator 1 (Some options_falsy))
           (Stub.mem [match_test] [])).2
    = [[match_test; Skip 0; Limit 10]] ∧
  ¬ (∀ (o : PaginationOptions.t) (m : Mem (list Stub.Answer)) stages,
       arrays m !! 1%positive = Some stages →
       let this := new_Paginator 1 (Some o) in
       calls (Stub.getData this m).2 =
         calls m ++
         [stages ++ [Skip ((page this - 1) * limit this); Limit (limit this)] ++
          match PaginationOptions.project o with
          | Some p => [Project p]
          | None => []
          end]).
Proof.
  split; [reflexivity|]. split; [by vm_compute|].
  intros H.
  specialize (H options_falsy (Stub.mem [match_test] []) [match_test] eq_refl).
  vm_compute in H. discriminate H.
Qed.

(** C8 as stated fails: the options [{ page: 0, limit: 5 }] are stored as
    page [1], and the skip stage is [0], not [(0-1)*5]; the options
    [{ page: 2, limit: 0 }] are stored with limit [10], and the limit
    stage carries [10], not [0]. *)
Lemma zero_page_limit_defaulted :
  page (new_Paginator 1 (Some options_page0)) = 1 ∧
  calls (Stub.getData (new_Paginator 1 (Some options_page0))
           (Stub.mem [] [])).2 = [[Skip 0; Limit 5]] ∧
  limit (new_Paginator 1 (Some options_limit0)) = 10 ∧
  calls (Stub.getData (new_Paginator 1 (Some options_limit0))
           (Stub.mem [] [])).2 = [[Skip 10; Limit 10]] ∧
  ¬ (∀ (o : PaginationOptions.t) p l (m : Mem (list Stub.Answer)) stages,
       PaginationOptions.page o = Some p →
       PaginationOptions.limit o = Some l →
       p ≤ 0 ∨ l ≤ 0 →
       arrays m !! 1%positive = Some stages →
       let this := new_Paginator 1 (Some o) in
       page this = p ∧ limit this = l ∧
       ∃ projection,
         calls (Stub.getData this m).2 =
           calls m ++ [stages ++ [Skip ((p - 1) * l); Limit l] ++ projection]).
Proof.
  split; [reflexivity|]. split; [by vm_compute|].
  split; [reflexivity|]. split; [by vm_compute|].
  intros H.
  destruct (H options_page0 0 5 (Stub.mem [] []) [] eq_refl eq_refl
              ltac:(lia) eq_refl) as [Hpage _].
  vm_compute in Hpage. discriminate Hpage.
Qed.


End Runs.


(** * Further properties of the paginator *)

Section Further.

Context {Document : Type} (totalCount_of : Document → option Z).
Context {World EngineError : Type}.
Context (aggregate : Pipeline → World → (EngineError + list Document) * World).

Local Abbreviation getData := (getData Document World EngineError aggregate).
Local Abbreviation getTotalInfo :=
  (getTotalInfo Document totalCount_of World EngineError aggregate).
Local Abbreviation paginate :=
  (paginate Document totalCount_of World EngineError aggregate).

Implicit Types (this : Paginator) (m : Mem World) (stages : Pipeline).

(** ** The constructor *)

(** X1.  The constructor never stores a page or a limit of [0], whatever the
    options, so [paginate] never divides by zero; the pipeline and the
    options object are kept as given. *)
Theorem constructor_page_limit_nonzero a opts :
  page (new_Paginator a opts) ≠ 0 ∧
  limit (new_Paginator a opts) ≠ 0 ∧
  aggregation (new_Paginator a opts) = a ∧
  options (new_Paginator a opts) = opts.
Proof.
  simpl. rewrite !or_else_number.
  split; [|split; [|done]].
  - destruct (opt_field opts PaginationOptions.page) as [p|]; [|done].
    by case_decide.
  - destruct (opt_field opts PaginationOptions.limit) as [l|]; [|done].
    by case_decide.
Qed.

(** X2.  An options object whose fields are all falsy ([0], the empty string,
    [null], or left out) gives the paginator that no options object gives:
    page [1], limit [10], empty [url] and [query], no projection, and the
    data pipeline of the defaults. *)
Theorem constructor_falsy_as_absent a o :
  truthy (PaginationOptions.page o) = false →
  truthy (PaginationOptions.limit o) = false →
  truthy (PaginationOptions.query o) = false →
  truthy (PaginationOptions.url o) = false →
  truthy (PaginationOptions.project o) = false →
  page (new_Paginator a (Some o)) = 1 ∧
  limit (new_Paginator a (Some o)) = 10 ∧
  query (new_Paginator a (Some o)) = "" ∧
  url (new_Paginator a (Some o)) = "" ∧
  project (new_Paginator a (Some o)) = None ∧
  ∀ stages,
    data_query (new_Paginator a (Some o)) stages
    = data_query (new_Paginator a None) stages ∧
    data_query (new_Paginator a None) stages = stages ++ [Skip 0; Limit 10].
Proof.
  destruct o as [p l q u pr]; simpl. intros Hp Hl Hq Hu Hpr.
  assert (Hdefault : ∀ {A} `{Truthy A} (x : option A) (d : A),
            truthy x = false → or_else x d = d).
  { intros A ? [x|] d Hx; [|done]. unfold or_else.
    change (truthy x = false) in Hx. by rewrite Hx. }
  unfold data_query, opt_field; simpl.
  rewrite !Hdefault by done.
  destruct pr as [pr|]; [change (truthy pr = false) in Hpr; rewrite Hpr|];
    done.
Qed.

(** ** Errors of the engine *)

(** X4.  When the engine rejects the data query, [paginate] throws that very
    error; the data query is the only call made, no count query follows,
    and the collection is left in the state the rejected query left. *)
Theorem data_query_rejected this m stages e :
  arrays m !! aggregation this = Some stages →
  (aggregate (data_query this stages) (world m)).1 = inl e →
  (paginate this m).1 = Thrown (Rejected e) ∧
  calls (paginate this m).2 = calls m ++ [data_query this stages] ∧
  world (paginate this m).2
    = (aggregate (data_query this stages) (world m)).2.
Proof.
  intros Hs He.
  rewrite (paginate_run totalCount_of aggregate this m).
  rewrite (getData_run aggregate this m stages Hs), He. simpl. done.
Qed.

(** ** Navigation URLs, one against the other *)

(** Two page numbers never share an URL. *)
Lemma page_url_inj this n n' : page_url this n = page_url this n' → n = n'.
Proof.
  unfold page_url. intros H.
  do 4 apply (inj (String.app _)) in H.
  by apply (inj pretty) in H.
Qed.

Lemma getFirstPageUrl_page_url this : getFirstPageUrl this = page_url this 1.
Proof. reflexivity. Qed.

(** X5.  [first_page_url] and [last_page_url] are the same string exactly when
    there is a single page. *)
Theorem first_last_url_same_iff this m r m' :
  paginate this m = (Returned r, m') →
  (Pagination.first_page_url r = Pagination.last_page_url r
   ↔ Pagination.last_page r = 1).
Proof.
  intros (data & m1 & tc & _ & -> & _)%(paginate_returned totalCount_of aggregate).
  simpl. set (totalPages := match tc with Some _ => _ | None => _ end).
  rewrite getFirstPageUrl_page_url. unfold getLastPageUrl. split.
  - by intros ->%page_url_inj.
  - by intros ->.
Qed.

(** X6.  [prev_page_url] is the first page's URL exactly on page two,
    [next_page_url] is the last page's URL exactly on the page before the
    last, and the two links never point to the same URL. *)
Theorem prev_next_against_first_last this m r m' :
  paginate this m = (Returned r, m') →
  (Pagination.prev_page_url r = Some (Pagination.first_page_url r)
   ↔ page this = 2) ∧
  (Pagination.next_page_url r = Some (Pagination.last_page_url r)
   ↔ page this + 1 = Pagination.last_page r) ∧
  (∀ u, Pagination.prev_page_url r = Some u →
        Pagination.next_page_url r ≠ Some u).
Proof.
  intros (data & m1 & tc & _ & -> & _)%(paginate_returned totalCount_of aggregate).
  simpl. set (totalPages := match tc with Some _ => _ | None => _ end).
  rewrite getFirstPageUrl_page_url.
  unfold getPreviousPageUrl, getNextPageUrl, getLastPageUrl.
  destruct (Z.eqb_spec (page this) 1) as [H1|H1],
           (Z.eqb_spec (page this) totalPages) as [Hl|Hl].
  - split; [split; [done|lia]|]. split; [split; [done|lia]|done].
  - split; [split; [done|lia]|].
    split; [split; [intros [= ?%page_url_inj]; lia | by intros <-]|done].
  - split; [split; [intros [= ?%page_url_inj]; lia | by intros ->]|].
    split; [split; [done|lia]|done].
  - split; [split; [intros [= ?%page_url_inj]; lia | by intros ->]|].
    split; [split; [intros [= ?%page_url_inj]; lia | by intros <-]|].
    intros u [= <-] [= ?%page_url_inj]. lia.
Qed.

(** ** Page arithmetic, by case *)

(** X7.  A single page: on page one with a total that fits the limit, the last
    page is [1], neither link is set, [to] is the total and the last page's
    URL is the first page's. *)
Theorem single_page_no_links this m r m' t :
  paginate this m = (Returned r, m') →
  page this = 1 →
  1 ≤ limit this →
  Pagination.total r = Some t →
  t ≤ limit this →
  Pagination.last_page r = 1 ∧
  Pagination.prev_page_url r = None ∧
  Pagination.next_page_url r = None ∧
  Pagination.to r = Some t ∧
  Pagination.from r = (if 0 <? t then 1 else 0) ∧
  Pagination.last_page_url r = Pagination.first_page_url r.
Proof.
  intros (data & m1 & tc & _ & -> & _)%(paginate_returned totalCount_of aggregate).
  simpl. intros Hp Hl -> Ht.
  assert (Hlast : (if 0 <? t then Math_ceil_div t (limit this) else 1) = 1).
  { destruct (Z.ltb_spec 0 t); [|done]. symmetry.
    apply Math_ceil_div_unique; lia. }
  rewrite Hlast. unfold getPreviousPageUrl, getNextPageUrl, getLastPageUrl.
  rewrite Hp. simpl. by destruct (0 <? t).
Qed.

(** X8.  An empty page that is not page one: the result still has total [0]
    and last page [1], but both links are set, to the pages before and
    after the one asked for, [to] is [page * limit] and [from] is [0]. *)
Theorem empty_page_off_page_one this m m1 :
  getData this m = (Returned [], m1) →
  page this ≠ 1 →
  ∃ r,
    paginate this m = (Returned r, m1) ∧
    Pagination.total r = Some 0 ∧
    Pagination.last_page r = 1 ∧
    Pagination.from r = 0 ∧
    Pagination.to r = Some (page this * limit this) ∧
    Pagination.prev_page_url r = Some (page_url this (page this - 1)) ∧
    Pagination.next_page_url r = Some (page_url this (page this + 1)) ∧
    Pagination.last_page_url r = Pagination.first_page_url r.
Proof.
  intros Hd Hp. exists (meta this [] (Some 0)).
  split; [by rewrite (paginate_run totalCount_of aggregate), Hd|].
  simpl. unfold getPreviousPageUrl, getNextPageUrl.
  destruct (Z.eqb_spec (page this) 1); done.
Qed.

(** X9.  With a positive total, [from] is [(page-1)*limit + 1] on every page
    (the case of page one gives the same number); off the last page the
    window [from..to] holds [limit] indices, on the last page it ends at
    the total. *)
Theorem from_to_window this m r m' t :
  paginate this m = (Returned r, m') →
  Pagination.total r = Some t →
  0 < t →
  Pagination.from r = (page this - 1) * limit this + 1 ∧
  (page this ≠ Pagination.last_page r →
     Pagination.to r = Some (Pagination.from r + limit this - 1)) ∧
  (page this = Pagination.last_page r → Pagination.to r = Some t).
Proof.
  intros (data & m1 & tc & _ & -> & _)%(paginate_returned totalCount_of aggregate).
  simpl. intros -> Ht. simpl.
  destruct (Z.ltb_spec 0 t); [|lia].
  set (totalPages := Math_ceil_div t (limit this)).
  destruct (Z.eqb_spec (page this) 1) as [H1|H1],
           (Z.eqb_spec (page this) totalPages) as [Hl|Hl];
    repeat split; try done; intros;
    try lia; try (f_equal; lia).
Qed.

(** X10.  When the page returned is the slice of the [t] records counted that
    the page and the limit cut out (its length is the smaller of [limit]
    and what is left of [t] after the pages before) and it has a record,
    the fields agree with it: the page is no later than the last page,
    [to] is the smaller of [page * limit] and the total, and [from..to]
    holds as many indices as the page has records. *)
Theorem slice_fields_consistent this m r m' t :
  paginate this m = (Returned r, m') →
  1 ≤ page this →
  1 ≤ limit this →
  Pagination.total r = Some t →
  Pagination.data r ≠ [] →
  Z.of_nat (length (Pagination.data r))
    = Z.min (limit this) (t - (page this - 1) * limit this) →
  page this ≤ Pagination.last_page r ∧
  Pagination.to r = Some (Z.min (page this * limit this) t) ∧
  Pagination.from r ≤ Z.min (page this * limit this) t ≤ t ∧
  Z.min (page this * limit this) t - Pagination.from r + 1
    = Z.of_nat (length (Pagination.data r)).
Proof.
  intros (data & m1 & tc & _ & -> & _)%(paginate_returned totalCount_of aggregate).
  simpl. intros Hp Hl -> Hdata Hlen.
  assert (1 ≤ Z.of_nat (length data)) by (destruct data; [done|simpl; lia]).
  assert (Ht : 0 < t) by nia.
  simpl. destruct (Z.ltb_spec 0 t); [|lia].
  pose proof (Math_ceil_div_bounds t (limit this) ltac:(lia)) as Hq.
  set (q := Math_ceil_div t (limit this)) in *.
  assert (Hpq : page this ≤ q) by nia.
  split; [done|].
  destruct (Z.eqb_spec (page this) q) as [Heq|Hne].
  - assert (Z.min (page this * limit this) t = t) as -> by nia.
    split; [done|].
    destruct (Z.eqb_spec (page this) 1); split; nia.
  - assert (page this * limit this < t) by nia.
    assert (Z.min (page this * limit this) t = page this * limit this) as ->
      by lia.
    split; [done|].
    destruct (Z.eqb_spec (page this) 1); split; nia.
Qed.

(** ** What a call depends on *)

Lemma paginate_frame this m a xs :
  arrays m !! a = Some xs → arrays (paginate this m).2 !! a = Some xs.
Proof.
  intros Ha. rewrite (paginate_memory totalCount_of aggregate).
  pose proof (getData_frame aggregate this m _ _ Ha) as Hf.
  destruct (getData this m) as [[[|d data]|e] m1]; simpl in *; try done.
  by apply getTotalInfo_frame.
Qed.

Lemma paginate_missing this m :
  arrays m !! aggregation this = None →
  paginate this m = (Thrown TypeError, m).
Proof.
  intros Hs. rewrite (paginate_run totalCount_of aggregate).
  by rewrite (getData_missing aggregate this m Hs).
Qed.

(** What [paginate] returns or throws, and the state it leaves the
    collection in, depend on the memory only through the stages of the
    caller's pipeline and the state of the collection: not on the calls
    made before, nor on any other array. *)
Lemma paginate_agree this m n :
  arrays m !! aggregation this = arrays n !! aggregation this →
  world m = world n →
  (paginate this m).1 = (paginate this n).1 ∧
  world (paginate this m).2 = world (paginate this n).2.
Proof.
  intros Ha Hw.
  destruct (arrays m !! aggregation this) as [stages|] eqn:Hm; symmetry in Ha.
  - rewrite !(paginate_run totalCount_of aggregate).
    rewrite (getData_run aggregate this m stages Hm).
    rewrite (getData_run aggregate this n stages Ha). rewrite <- Hw.
    destruct (aggregate (data_query this stages) (world m)) as [[e|data] w];
      simpl; [done|].
    destruct data as [|d data]; simpl; [done|].
    rewrite (getTotalInfo_run totalCount_of aggregate this
               (after_query m (data_query this stages) w) stages)
      by by apply after_query_frame.
    rewrite (getTotalInfo_run totalCount_of aggregate this
               (after_query n (data_query this stages) w) stages)
      by by apply after_query_frame.
    simpl.
    by destruct (aggregate (count_query stages) w) as [[e|[|c counts]] w'].
  - rewrite (paginate_missing this m Hm), (paginate_missing this n Ha). done.
Qed.

(** X11.  On a collection that queries do not change, a second call on the same
    paginator returns or throws what the first did. *)
Theorem paginate_again_same_outcome this m :
  (∀ p w, (aggregate p w).2 = w) →
  (paginate this (paginate this m).2).1 = (paginate this m).1.
Proof.
  intros Hro.
  assert (Hworld : world (paginate this m).2 = world m).
  { destruct (arrays m !! aggregation this) as [stages|] eqn:Hm.
    - rewrite (paginate_run totalCount_of aggregate).
      rewrite (getData_run aggregate this m stages Hm).
      pose proof (Hro (data_query this stages) (world m)) as Hw.
      destruct (aggregate (data_query this stages) (world m))
        as [[e|[|d data]] w]; simpl in *; try done.
      rewrite (getTotalInfo_run totalCount_of aggregate this
                 (after_query m (data_query this stages) w) stages)
        by by apply after_query_frame.
      simpl. pose proof (Hro (count_query stages) w) as Hw'.
      destruct (aggregate (count_query stages) w) as [[e|[|c counts]] w'];
        simpl in *; congruence.
    - by rewrite (paginate_missing this m Hm). }
  apply paginate_agree; [|done].
  destruct (arrays m !! aggregation this) as [stages|] eqn:Hm.
  - by apply paginate_frame.
  - by rewrite (paginate_missing this m Hm).
Qed.

(** ** Degenerate counts and limits *)

(** X12.  A count record without a [totalCount] field: [paginate] returns the
    page with an undefined total, last page [1] and [from] [0]; [to] is
    undefined on page one and [page * limit] elsewhere. *)
Theorem count_field_missing this m d data m1 stages c counts :
  getData this m = (Returned (d :: data), m1) →
  arrays m !! aggregation this = Some stages →
  (aggregate (count_query stages) (world m1)).1 = inr (c :: counts) →
  totalCount_of c = None →
  ∃ r,
    (paginate this m).1 = Returned r ∧
    Pagination.data r = d :: data ∧
    Pagination.total r = None ∧
    Pagination.last_page r = 1 ∧
    Pagination.from r = 0 ∧
    Pagination.to r
      = (if decide (page this = 1) then None
         else Some (page this * limit this)) ∧
    (Pagination.next_page_url r = None ↔ page this = 1).
Proof.
  intros Hd Hs Hc Hnone.
  assert (Hs1 : arrays m1 !! aggregation this = Some stages).
  { pose proof (getData_frame aggregate this m _ _ Hs) as Hf.
    by rewrite Hd in Hf. }
  exists (meta this (d :: data) None).
  split.
  - rewrite (paginate_run totalCount_of aggregate), Hd. simpl.
    rewrite (getTotalInfo_run totalCount_of aggregate this m1 stages Hs1).
    rewrite Hc, Hnone. done.
  - simpl. unfold getNextPageUrl.
    destruct (Z.eqb_spec (page this) 1); case_decide; done.
Qed.

(** X13.  A negative limit with a positive total: the last page is [0] or
    below, so from page one on no page is the last one: [next_page_url] is
    set and [to] is [page * limit], a negative number. *)
Theorem negative_limit_degenerate this m r m' t :
  paginate this m = (Returned r, m') →
  limit this < 0 →
  Pagination.total r = Some t →
  0 < t →
  Pagination.last_page r ≤ 0 ∧
  (1 ≤ page this →
     Pagination.next_page_url r = Some (page_url this (page this + 1)) ∧
     Pagination.to r = Some (page this * limit this) ∧
     page this * limit this < 0).
Proof.
  intros (data & m1 & tc & _ & -> & _)%(paginate_returned totalCount_of aggregate).
  simpl. intros Hl -> Ht. simpl.
  destruct (Z.ltb_spec 0 t); [|lia].
  assert (Hq : Math_ceil_div t (limit this) ≤ 0).
  { unfold Math_ceil_div. Z.div_mod_to_equations. nia. }
  split; [done|]. intros Hp. unfold getNextPageUrl.
  destruct (Z.eqb_spec (page this) (Math_ceil_div t (limit this))); [lia|].
  repeat split; nia.
Qed.

End Further.

(** ** The further properties at the scenarios *)

Section FurtherRuns.

Import Scenario Edge.

Local Abbreviation result_last :=
  (meta this_last ((λ i, [("id", i)]) <$> [11; 12; 13; 14; 15]) (Some 15)).
Local Abbreviation result_single :=
  (meta this_single [[("id", 1)]; [("id", 2)]; [("id", 3)]] (Some 3)).
Local Abbreviation result_middle' :=
  (meta this_middle [[("id", 3)]; [("id", 4)]] (Some 5)).
Local Abbreviation nat_length := (@length Stub.Row).

Lemma constructor_falsy_as_absent_run :
  page (new_Paginator 1 (Some options_all_falsy)) = 1 ∧
  limit (new_Paginator 1 (Some options_all_falsy)) = 10 ∧
  query (new_Paginator 1 (Some options_all_falsy)) = "" ∧
  url (new_Paginator 1 (Some options_all_falsy)) = "" ∧
  project (new_Paginator 1 (Some options_all_falsy)) = None ∧
  ∀ stages,
    data_query (new_Paginator 1 (Some options_all_falsy)) stages
    = data_query (new_Paginator 1 None) stages ∧
    data_query (new_Paginator 1 None) stages = stages ++ [Skip 0; Limit 10].
Proof.
  apply (constructor_falsy_as_absent 1%positive options_all_falsy);
    reflexivity.
Defined.

Lemma data_query_rejected_run :
  arrays mem_down !! aggregation this_default = Some [match_test] ∧
  (Stub.aggregate (data_query this_default [match_test]) (world mem_down)).1
    = inl "connection lost" ∧
  (Stub.paginate this_default mem_down).1
    = Thrown (Rejected "connection lost") ∧
  calls (Stub.paginate this_default mem_down).2
    = [[match_test; Skip 0; Limit 10]] ∧
  world (Stub.paginate this_default mem_down).2 = [inr []].
Proof.
  split; [by vm_compute|]. split; [reflexivity|].
  apply (data_query_rejected Stub.totalCount_of Stub.aggregate
           this_default mem_down [match_test] "connection lost").
  - by vm_compute.
  - reflexivity.
Defined.

Lemma first_last_url_same_iff_run :
  Sample.paginate this_single mem_three
    = (Returned result_single, (Sample.paginate this_single mem_three).2) ∧
  (Pagination.first_page_url result_single
     = Pagination.last_page_url result_single
   ↔ Pagination.last_page result_single = 1).
Proof.
  split; [by vm_compute|].
  apply (first_last_url_same_iff Stub.totalCount_of Sample.aggregate
           this_single mem_three result_single
           (Sample.paginate this_single mem_three).2).
  by vm_compute.
Defined.

Lemma prev_next_against_first_last_run :
  Sample.paginate this_last mem_fifteen
    = (Returned result_last, (Sample.paginate this_last mem_fifteen).2) ∧
  (Pagination.prev_page_url result_last
     = Some (Pagination.first_page_url result_last)
   ↔ page this_last = 2) ∧
  (Pagination.next_page_url result_last
     = Some (Pagination.last_page_url result_last)
   ↔ page this_last + 1 = Pagination.last_page result_last) ∧
  (∀ u, Pagination.prev_page_url result_last = Some u →
        Pagination.next_page_url result_last ≠ Some u).
Proof.
  split; [by vm_compute|].
  apply (prev_next_against_first_last Stub.totalCount_of Sample.aggregate
           this_last mem_fifteen result_last
           (Sample.paginate this_last mem_fifteen).2).
  by vm_compute.
Defined.

Lemma single_page_no_links_run :
  Sample.paginate this_single mem_three
    = (Returned result_single, (Sample.paginate this_single mem_three).2) ∧
  page this_single = 1 ∧
  1 ≤ limit this_single ∧
  Pagination.total result_single = Some 3 ∧
  3 ≤ limit this_single ∧
  Pagination.last_page result_single = 1 ∧
  Pagination.prev_page_url result_single = None ∧
  Pagination.next_page_url result_single = None ∧
  Pagination.to result_single = Some 3 ∧
  Pagination.from result_single = 1 ∧
  Pagination.last_page_url result_single
    = Pagination.first_page_url result_single.
Proof.
  split; [by vm_compute|]. split; [reflexivity|]. split; [by vm_compute|].
  split; [reflexivity|]. split; [by vm_compute|].
  apply (single_page_no_links Stub.totalCount_of Sample.aggregate
           this_single mem_three result_single
           (Sample.paginate this_single mem_three).2 3).
  - by vm_compute.
  - reflexivity.
  - by vm_compute.
  - reflexivity.
  - by vm_compute.
Defined.

Lemma empty_page_off_page_one_run :
  Sample.getData this_beyond (Sample.mem [] (Sample.rows 5))
    = (Returned [],
       (Sample.getData this_beyond (Sample.mem [] (Sample.rows 5))).2) ∧
  page this_beyond ≠ 1 ∧
  ∃ r,
    Sample.paginate this_beyond (Sample.mem [] (Sample.rows 5))
      = (Returned r,
         (Sample.getData this_beyond (Sample.mem [] (Sample.rows 5))).2) ∧
    Pagination.total r = Some 0 ∧
    Pagination.last_page r = 1 ∧
    Pagination.from r = 0 ∧
    Pagination.to r = Some 18 ∧
    Pagination.prev_page_url r = Some "?page=8" ∧
    Pagination.next_page_url r = Some "?page=10" ∧
    Pagination.last_page_url r = Pagination.first_page_url r.
Proof.
  split; [by vm_compute|]. split; [by vm_compute|].
  apply (empty_page_off_page_one Stub.totalCount_of Sample.aggregate
           this_beyond (Sample.mem [] (Sample.rows 5))).
  - by vm_compute.
  - by vm_compute.
Defined.

Lemma from_to_window_run :
  Sample.paginate this_middle mem_middle
    = (Returned result_middle', (Sample.paginate this_middle mem_middle).2) ∧
  Pagination.total result_middle' = Some 5 ∧
  0 < 5 ∧
  Pagination.from result_middle' = 3 ∧
  (page this_middle ≠ Pagination.last_page result_middle' →
     Pagination.to result_middle' = Some 4) ∧
  (page this_middle = Pagination.last_page result_middle' →
     Pagination.to result_middle' = Some 5).
Proof.
  split; [by vm_compute|]. split; [reflexivity|]. split; [lia|].
  apply (from_to_window Stub.totalCount_of Sample.aggregate
           this_middle mem_middle result_middle'
           (Sample.paginate this_middle mem_middle).2 5).
  - by vm_compute.
  - reflexivity.
  - lia.
Defined.

Lemma slice_fields_consistent_run :
  Sample.paginate this_last mem_fifteen
    = (Returned result_last, (Sample.paginate this_last mem_fifteen).2) ∧
  Z.of_nat (nat_length (Pagination.data result_last))
    = Z.min (limit this_last) (15 - (page this_last - 1) * limit this_last) ∧
  page this_last ≤ Pagination.last_page result_last ∧
  Pagination.to result_last = Some 15 ∧
  Pagination.from result_last ≤ 15 ≤ 15 ∧
  15 - Pagination.from result_last + 1
    = Z.of_nat (nat_length (Pagination.data result_last)).
Proof.
  split; [by vm_compute|]. split; [by vm_compute|].
  apply (slice_fields_consistent Stub.totalCount_of Sample.aggregate
           this_last mem_fifteen result_last
           (Sample.paginate this_last mem_fifteen).2 15).
  - by vm_compute.
  - by vm_compute.
  - by vm_compute.
  - reflexivity.
  - discriminate.
  - by vm_compute.
Defined.

Lemma paginate_again_same_outcome_run :
  (∀ p w, (Sample.aggregate p w).2 = w) ∧
  (Sample.paginate this_middle (Sample.paginate this_middle mem_middle).2).1
  = (Sample.paginate this_middle mem_middle).1.
Proof.
  split; [reflexivity|].
  apply (paginate_again_same_outcome Stub.totalCount_of Sample.aggregate
           this_middle mem_middle).
  reflexivity.
Defined.

Lemma count_field_missing_run :
  Stub.getData this_default mem_no_field
    = (Returned [[("id", 7)]], (Stub.getData this_default mem_no_field).2) ∧
  (Stub.aggregate (count_query [])
     (world (Stub.getData this_default mem_no_field).2)).1 = inr [[]] ∧
  Stub.totalCount_of [] = None ∧
  ∃ r,
    (Stub.paginate this_default mem_no_field).1 = Returned r ∧
    Pagination.data r = [[("id", 7)]] ∧
    Pagination.total r = None ∧
    Pagination.last_page r = 1 ∧
    Pagination.from r = 0 ∧
    Pagination.to r = None ∧
    (Pagination.next_page_url r = None ↔ page this_default = 1).
Proof.
  split; [by vm_compute|]. split; [by vm_compute|]. split; [reflexivity|].
  apply (count_field_missing Stub.totalCount_of Stub.aggregate this_default
           mem_no_field [("id", 7)] []
           (Stub.getData this_default mem_no_field).2 [] [] []).
  - by vm_compute.
  - by vm_compute.
  - by vm_compute.
  - reflexivity.
Defined.

Lemma negative_limit_degenerate_run :
  Stub.paginate this_negative mem_seven
    = (Returned (meta this_negative [[("id", 7)]] (Some 7)),
       (Stub.paginate this_negative mem_seven).2) ∧
  limit this_negative < 0 ∧
  Pagination.last_page (meta this_negative [[("id", 7)]] (Some 7)) ≤ 0 ∧
  (1 ≤ page this_negative →
     Pagination.next_page_url (meta this_negative [[("id", 7)]] (Some 7))
       = Some "?page=3" ∧
     Pagination.to (meta this_negative [[("id", 7)]] (Some 7)) = Some (-6) ∧
     page this_negative * limit this_negative < 0).
Proof.
  split; [by vm_compute|]. split; [by vm_compute|].
  apply (negative_limit_degenerate Stub.totalCount_of Stub.aggregate
           this_negative mem_seven _ (Stub.paginate this_negative mem_seven).2
           7).
  - by vm_compute.
  - by vm_compute.
  - reflexivity.
  - lia.
Defined.

End FurtherRuns.
